(** * ilda-tools: frame decoder and WAV sample scheduler

    A shallow embedding of [src/ilda_wav.cpp] (the sample scheduler behind
    [ILDAWavOutput::run]) and of [src/ilda_istream.cpp] (the ILDA frame
    decoder behind [ILDAIStream::nextFrame]), with the properties the
    specification states about them.

    Conventions of the embedding.
    - The host is little-endian (x86, ARM): [native_to_little] is the
      identity, [big_to_native] swaps bytes, 16-bit fields that the code
      copies without conversion are read in host order, and bit-fields are
      allocated from the least significant bit.
    - [int] is a 32-bit signed integer.  Signed overflow and division by zero
      are undefined behaviour in C++; an operation that leaves the range
      yields [Fail Undefined].  Narrowing conversions to [int16_t] and the
      unsigned types are modular.
    - A C++ exception is a [Fail] with the matching [failure]. *)

From Stdlib Require Import ZArith List Lia String Ascii.
From stdpp Require Import base gmap list.
From coqutil Require Import Byte Word.LittleEndianList.

Local Open Scope Z_scope.

(** ** Outcomes of a computation *)

Inductive failure : Type :=
| CorruptFormat      (* runtime_error("Corrupt ILDA file.") *)
| UnexpectedEof      (* runtime_error("Unexpected end of input.") *)
| UnsupportedFormat  (* runtime_error("Not supported.") *)
| InvalidSignal      (* runtime_error("Invalid signal.") *)
| LengthError        (* std::vector constructed with a negative size *)
| Undefined.         (* undefined behaviour *)

Inductive result (A : Type) : Type :=
| Ok (a : A)
| Fail (e : failure).
Arguments Ok {A} a.
Arguments Fail {A} e.

#[global] Instance result_ret : MRet result := λ A a, Ok a.
#[global] Instance result_bind : MBind result :=
  λ A B f m, match m with Ok a => f a | Fail e => Fail e end.

(** ** Machine integers *)

Module Cxx.

Definition INT_MAX : Z := 2147483647.
Definition INT_MIN : Z := -2147483648.
Definition INT16_MAX : Z := 32767.
Definition UINT8_MAX : Z := 255.

Definition in_int (z : Z) : bool := (INT_MIN <=? z) && (z <=? INT_MAX).

(** The value of an [int] expression whose mathematical value is [z]. *)
Definition to_int (z : Z) : result Z :=
  if in_int z then Ok z else Fail Undefined.

Definition int_add (a b : Z) : result Z := to_int (a + b).
Definition int_mul (a b : Z) : result Z := to_int (a * b).
(** [/] and [%] truncate towards zero. *)
Definition int_div (a b : Z) : result Z :=
  if b =? 0 then Fail Undefined else to_int (a ÷ b).
Definition int_rem (a b : Z) : result Z :=
  if b =? 0 then Fail Undefined
  else if (a =? INT_MIN) && (b =? -1) then Fail Undefined
  else Ok (Z.rem a b).

(** Conversions to the fixed-width types. *)
Definition int16_t (z : Z) : Z := (z + 32768) mod 65536 - 32768.
Definition uint16_t (z : Z) : Z := z mod 65536.
Definition uint32_t (z : Z) : Z := z mod 4294967296.

End Cxx.

(** ** frame.hpp *)

Record Point : Type := {
  x : Z; y : Z; z : Z;      (* int16_t *)
  r : Z; g : Z; b : Z       (* uint16_t *)
}.

Record Frame : Type := {
  projector : Z;            (* uint8_t *)
  points : list Point
}.

(** ** ilda_wav.cpp: the fair remainder distribution *)

Module Wav.
Import Cxx.

Definition groupSizeOfNthGroup (total_size groups index : Z) : result Z :=
  base ← int_div total_size groups;
  rest ← int_rem total_size groups;
  lhs_product ← int_mul index rest;
  lhs ← int_rem lhs_product groups;
  next_index ← int_add index 1;
  rhs_product ← int_mul next_index rest;
  rhs ← int_rem rhs_product groups;
  let extra_needed := lhs >? rhs in
  if extra_needed then int_add base 1 else Ok base.

(** The sizes of the first [n] groups, in order; a failure of any call is
    the failure of the whole. *)
Fixpoint groupSizes (total_size groups : Z) (n : nat) : result (list Z) :=
  match n with
  | O => Ok []
  | S k =>
      sizes ← groupSizes total_size groups k;
      size ← groupSizeOfNthGroup total_size groups (Z.of_nat k);
      Ok (sizes ++ [size])
  end.

Definition sum_list (l : list Z) : Z := fold_right Z.add 0 l.

(** The rule of the specification, over the mathematical integers. *)
Definition extra_unit (T G i : Z) : Z :=
  if (i * (T mod G)) mod G >? ((i + 1) * (T mod G)) mod G then 1 else 0.

Definition fair_size (T G i : Z) : Z := T / G + extra_unit T G i.

(** *** The container header *)

Module WavHeader.

(** The tags [riff], [wave], [fmt] and [data] are constants of the struct;
    the numeric members are the fields below.  The struct has no padding:
    its 44 bytes are the members in declaration order. *)
Record t : Type := {
  chunk_size : Z;        (* uint32_t *)
  fmt_chunk_size : Z;    (* uint32_t, 16 *)
  audio_format : Z;      (* uint16_t, 1 *)
  channels : Z;          (* uint16_t *)
  rate : Z;              (* uint32_t *)
  bytes_per_second : Z;  (* uint32_t *)
  bytes_per_block : Z;   (* uint16_t *)
  bits_per_sample : Z;   (* uint16_t, 16 *)
  data_size : Z          (* uint32_t *)
}.

(** [WavHeader header; header.channels = c; header.rate = r;] with the two
    members that [update] sets still indeterminate (here 0). *)
Definition init (channel_count rate_hz : Z) : t :=
  {| chunk_size := 0; fmt_chunk_size := 16; audio_format := 1;
     channels := uint16_t channel_count; rate := uint32_t rate_hz;
     bytes_per_second := 0; bytes_per_block := 0; bits_per_sample := 16;
     data_size := 0 |}.

Definition update (h : t) (new_data_size : Z) : result t :=
  new_chunk_size ← int_add new_data_size 36;
  let block := uint16_t ((bits_per_sample h * channels h) ÷ 8) in
  Ok {| chunk_size := uint32_t new_chunk_size;
        fmt_chunk_size := fmt_chunk_size h;
        audio_format := audio_format h;
        channels := channels h;
        rate := rate h;
        bytes_per_second := uint32_t (rate h * block);
        bytes_per_block := block;
        bits_per_sample := bits_per_sample h;
        data_size := uint32_t new_data_size |}.

(** [littleEndian] returns the copy it took on entry and converts [*this]
    in place; on a little-endian host the conversions are the identity, so
    both are [h].  The pair is (returned copy, [*this] afterwards). *)
Definition littleEndian (h : t) : t * t := (h, h).

Definition tag (s : string) : list byte :=
  map (λ c, byte.of_Z (Z.of_N (N_of_ascii c))) (list_ascii_of_string s).

(** The object representation of the struct, as [output.write] sends its
    [sizeof(le_header)] bytes. *)
Definition bytes (h : t) : list byte :=
  tag "RIFF" ++ le_split 4 (chunk_size h) ++ tag "WAVE" ++ tag "fmt " ++
  le_split 4 (fmt_chunk_size h) ++ le_split 2 (audio_format h) ++
  le_split 2 (channels h) ++ le_split 4 (rate h) ++
  le_split 4 (bytes_per_second h) ++ le_split 2 (bytes_per_block h) ++
  le_split 2 (bits_per_sample h) ++ tag "data" ++ le_split 4 (data_size h).

(** Reading the two size fields back from a written header. *)
Definition declared_chunk_size (file : list byte) : Z :=
  le_combine (take 4 (drop 4 file)).
Definition declared_data_size (file : list byte) : Z :=
  le_combine (take 4 (drop 40 file)).

End WavHeader.

(** *** The output stream: a seekable file *)

Record ostream : Type := {
  content : list byte;
  position : nat
}.

Definition ostream_write (bs : list byte) (o : ostream) : ostream :=
  {| content := take (position o) (content o) ++ bs ++
                drop (position o + length bs) (content o);
     position := position o + length bs |}.

Definition ostream_seekp (n : nat) (o : ostream) : ostream :=
  {| content := content o; position := n |}.

(** *** ILDAWavOutput::run *)

Record ILDAWavOutput : Type := {
  fps : Z;
  signals : string;
  invert : string;
  rate : Z;
  pps : Z
}.

(** The mutable locals of [run]. *)
Record Locals : Type := mkLocals {
  frame_number : Z;
  point_number : Z;
  total_bytes : Z;
  last_x : Z; last_y : Z; last_z : Z;
  frame_data : list Z;       (* std::vector<int16_t> *)
  sample_number : Z;
  output : ostream
}.

Definition set_sample (fd : list Z) (n : Z) (st : Locals) : Locals :=
  mkLocals (frame_number st) (point_number st) (total_bytes st)
           (last_x st) (last_y st) (last_z st) fd n (output st).

Definition set_point_number (n : Z) (st : Locals) : Locals :=
  mkLocals (frame_number st) n (total_bytes st)
           (last_x st) (last_y st) (last_z st)
           (frame_data st) (sample_number st) (output st).

Definition set_last (lx ly lz : Z) (st : Locals) : Locals :=
  mkLocals (frame_number st) (point_number st) (total_bytes st)
           lx ly lz (frame_data st) (sample_number st) (output st).

(** [invert.find(c) != std::string::npos] *)
Fixpoint contains (c : ascii) (s : string) : bool :=
  match s with
  | EmptyString => false
  | String c' rest => Ascii.eqb c' c || contains c rest
  end.

(** The values computed at the head of the [p] loop body. *)
Record SubSample : Type := {
  ix : Z; iy : Z; iz : Z;
  sl : Z; sr : Z; sg : Z; sb : Z
}.

(** [last + ((int)d * p / k)] stored to an [int16_t]. *)
Definition interpolate (last d p k : Z) : result Z :=
  product ← int_mul d p;
  quotient ← int_div product k;
  sum ← int_add last quotient;
  Ok (int16_t sum).

(** [c * (numeric_limits<int16_t>::max() / numeric_limits<uint8_t>::max())]
    stored to an [int16_t]. *)
Definition color_signal (c : Z) : Z := int16_t (c * (INT16_MAX ÷ UINT8_MAX)).

Definition laser_signal (coordinate : Point) : Z :=
  if (r coordinate =? 0) && (g coordinate =? 0) && (b coordinate =? 0)
  then 0 else INT16_MAX.

Definition sub_sample (coordinate : Point) (lx ly lz dx dy dz p k : Z)
  : result SubSample :=
  vx ← interpolate lx dx p k;
  vy ← interpolate ly dy p k;
  vz ← interpolate lz dz p k;
  Ok {| ix := vx; iy := vy; iz := vz;
        sl := laser_signal coordinate;
        sr := color_signal (r coordinate);
        sg := color_signal (g coordinate);
        sb := color_signal (b coordinate) |}.

(** The [switch (s)] of the innermost loop. *)
Definition signal_value (s : ascii) (v : SubSample) : result Z :=
  if Ascii.eqb s "x" then Ok (ix v)
  else if Ascii.eqb s "y" then Ok (iy v)
  else if Ascii.eqb s "z" then Ok (iz v)
  else if Ascii.eqb s "l" then Ok (sl v)
  else if Ascii.eqb s "r" then Ok (sr v)
  else if Ascii.eqb s "g" then Ok (sg v)
  else if Ascii.eqb s "b" then Ok (sb v)
  else Fail InvalidSignal.

(** [frame_data[sample_number] = v; sample_number++;] an index outside the
    vector is undefined behaviour. *)
Definition store_sample (v : Z) (st : Locals) : result Locals :=
  if (0 <=? sample_number st) &&
     (sample_number st <? Z.of_nat (length (frame_data st)))
  then Ok (set_sample (<[Z.to_nat (sample_number st) := v]> (frame_data st))
                      (sample_number st + 1) st)
  else Fail Undefined.

(** [for (unsigned char s : signals) { switch ... }] *)
Fixpoint emit_signals (sigs : list ascii) (v : SubSample) (st : Locals)
  : result Locals :=
  match sigs with
  | [] => Ok st
  | s :: rest =>
      value ← signal_value s v;
      st' ← store_sample value st;
      emit_signals rest v st'
  end.

(** [for (int q = 0; q < samples_of_location; q++)], [n] iterations left. *)
Fixpoint emit_samples (n : nat) (sigs : list ascii) (v : SubSample)
  (st : Locals) : result Locals :=
  match n with
  | O => Ok st
  | S n' =>
      st' ← emit_signals sigs v st;
      emit_samples n' sigs v st'
  end.

(** [for (int p = ...; p <= point_count_of_location; p++)], [n] iterations
    left, the next one at [p]. *)
Fixpoint sub_steps (cfg : ILDAWavOutput) (coordinate : Point)
  (dx dy dz k : Z) (n : nat) (p : Z) (st : Locals) : result Locals :=
  match n with
  | O => Ok st
  | S n' =>
      v ← sub_sample coordinate (last_x st) (last_y st) (last_z st)
                     dx dy dz p k;
      samples_of_location ←
        groupSizeOfNthGroup (rate cfg) (pps cfg) (point_number st);
      st1 ← emit_samples (Z.to_nat samples_of_location)
                         (list_ascii_of_string (signals cfg)) v st;
      next_point ← int_add (point_number st1) 1;
      sub_steps cfg coordinate dx dy dz k n' (p + 1)
                (set_point_number next_point st1)
  end.

(** The body of [for (int i = 0; i < location_count; i++)]. *)
Definition location (cfg : ILDAWavOutput) (point_count location_count i : Z)
  (coordinate : Point) (st : Locals) : result Locals :=
  point_count_of_location ← groupSizeOfNthGroup point_count location_count i;
  if point_count_of_location =? 0 then Ok st
  else
    let px := int16_t (if contains "x" (invert cfg)
                       then x coordinate * -1 else x coordinate) in
    let py := int16_t (if contains "y" (invert cfg)
                       then y coordinate * -1 else y coordinate) in
    let pz := int16_t (if contains "z" (invert cfg)
                       then z coordinate * -1 else z coordinate) in
    let dx := int16_t (px - last_x st) in
    let dy := int16_t (py - last_y st) in
    let dz := int16_t (pz - last_z st) in
    st' ← sub_steps cfg coordinate dx dy dz point_count_of_location
                    (Z.to_nat point_count_of_location) 1 st;
    Ok (set_last px py pz st').

Fixpoint locations (cfg : ILDAWavOutput) (point_count location_count i : Z)
  (pts : list Point) (st : Locals) : result Locals :=
  match pts with
  | [] => Ok st
  | coordinate :: rest =>
      st' ← location cfg point_count location_count i coordinate st;
      locations cfg point_count location_count (i + 1) rest st'
  end.

Definition sample_bytes (samples : list Z) : list byte :=
  concat (map (le_split 2) samples).

(** The body of [while ((frame = input.nextFrame()))]. *)
Definition run_frame (cfg : ILDAWavOutput) (frame : Frame) (st : Locals)
  : result Locals :=
  frame_in_second ← int_rem (frame_number st) (fps cfg);
  let st0 := set_sample (frame_data st) 0
               (if frame_in_second =? 0 then set_point_number 0 st else st) in
  point_count ← groupSizeOfNthGroup (pps cfg) (fps cfg) frame_in_second;
  location_count ← to_int (Z.of_nat (length (points frame)));
  st1 ← locations cfg point_count location_count 0 (points frame) st0;
  (* a count that does not fit [int] would reach [write] as a negative
     length *)
  bytes ← to_int (sample_number st1 * 2);
  let written :=
    sample_bytes (take (Z.to_nat (sample_number st1)) (frame_data st1)) in
  new_total ← int_add (total_bytes st1) bytes;
  new_frame_number ← int_add (frame_number st1) 1;
  Ok (mkLocals new_frame_number (point_number st1) new_total
               (last_x st1) (last_y st1) (last_z st1)
               (frame_data st1) (sample_number st1)
               (ostream_write written (output st1))).

(** The [while] loop over the frames that [input.nextFrame()] yields before
    it returns [nullptr]. *)
Fixpoint run_frames (cfg : ILDAWavOutput) (input : list Frame) (st : Locals)
  : result Locals :=
  match input with
  | [] => Ok st
  | frame :: rest =>
      st' ← run_frame cfg frame st;
      run_frames cfg rest st'
  end.

Definition channel_count (cfg : ILDAWavOutput) : Z :=
  Z.of_nat (String.length (signals cfg)).

(** [run] on the frames of [input], writing to [out]; the result is the
    locals at the end of the loop and the final stream. *)
Definition run (cfg : ILDAWavOutput) (input : list Frame) (out : ostream)
  : result (Locals * ostream) :=
  header ← WavHeader.update (WavHeader.init (channel_count cfg) (rate cfg)) 0;
  let '(le_header, header) := WavHeader.littleEndian header in
  let out := ostream_write (WavHeader.bytes le_header) out in
  capacity ← int_mul (rate cfg) (channel_count cfg);
  if capacity <? 0 then Fail LengthError
  else
    let st := mkLocals 0 0 0 0 0 0 (replicate (Z.to_nat capacity) 0) 0 out in
    st' ← run_frames cfg input st;
    header ← WavHeader.update header (total_bytes st');
    let '(le_header, header) := WavHeader.littleEndian header in
    let out := ostream_seekp 0 (output st') in
    let out := ostream_write (WavHeader.bytes le_header) out in
    Ok (st', out).

Definition empty_file : ostream := {| content := []; position := 0 |}.

(** Reading the samples of a written file back: the signed 16-bit
    little-endian values behind the 44 bytes of the header. *)
Fixpoint samples_of_bytes (bs : list byte) : list Z :=
  match bs with
  | low :: high :: rest => int16_t (le_combine [low; high]) :: samples_of_bytes rest
  | _ => []
  end.

Definition written_samples (file : list byte) : list Z :=
  samples_of_bytes (drop 44 file).

(** [run] on a fresh file, and the samples found in the finished file. *)
Definition run_samples (cfg : ILDAWavOutput) (input : list Frame)
  : result (list Z) :=
  '(_, out) ← run cfg input empty_file;
  Ok (written_samples (content out)).

Definition mkPoint (px py pz red green blue : Z) : Point :=
  {| x := px; y := py; z := pz; r := red; g := green; b := blue |}.

(** *** Invariants of the loops *)

(** The write index stays inside the staging buffer. *)
Definition buffer_ok (st : Locals) : Prop :=
  0 <= sample_number st <= Z.of_nat (length (frame_data st)).

(** What the loops inside a frame leave alone. *)
Definition carried (st st' : Locals) : Prop :=
  output st' = output st /\
  total_bytes st' = total_bytes st /\
  frame_number st' = frame_number st /\
  (buffer_ok st -> buffer_ok st').

(** The file behind a header of 44 bytes: everything written lies behind
    it, and [total_bytes] counts it. *)
Definition file_ok (st : Locals) : Prop :=
  position (output st) = length (content (output st)) /\
  Z.of_nat (length (content (output st))) = 44 + total_bytes st /\
  0 <= total_bytes st.

End Wav.

(** ** ilda.hpp: the packed records of the file format *)

Module ILDA.
Import Cxx.

Definition FORMAT_3D_COORDINATES_INDEXED : Z := 0.
Definition FORMAT_2D_INDEXED : Z := 1.
Definition FORMAT_COLOR_PALETTE : Z := 2.
Definition FORMAT_COORDINATES_3D_TRUE : Z := 4.
Definition FORMAT_COORDINATES_2D_TRUE : Z := 5.

(** A [uint8_t] member at offset [i] of an object representation. *)
Definition u8 (i : nat) (bs : list byte) : Z :=
  byte.unsigned (nth i bs Byte.x00).

(** A 16-bit member at offset [i], in host order. *)
Definition u16 (i : nat) (bs : list byte) : Z :=
  le_combine (take 2 (drop i bs)).
Definition i16 (i : nat) (bs : list byte) : Z := int16_t (u16 i bs).

(** [boost::endian::big_to_native] on a [uint16_t]. *)
Definition big_to_native (v : Z) : Z := (v mod 256) * 256 + (v / 256) mod 256.

(** [ilda_status]: six unnamed bits, then [blanked], then [last_point]. *)
Definition blanked (status : Z) : bool := Z.testbit status 6.
Definition last_point (status : Z) : bool := Z.testbit status 7.

Module ilda_header.
Record t : Type := {
  ilda : list byte;          (* char[4] *)
  reserved_a : list byte;    (* char[3] *)
  format : Z;
  name : list byte;          (* char[8] *)
  company : list byte;       (* char[8] *)
  number_of_records : Z;     (* as stored, not yet converted *)
  frame_number : Z;
  total_frames : Z;
  projector_id : Z;
  reserved_b : Z
}.
Definition size : nat := 32.
Definition of_bytes (bs : list byte) : t :=
  {| ilda := take 4 bs;
     reserved_a := take 3 (drop 4 bs);
     format := u8 7 bs;
     name := take 8 (drop 8 bs);
     company := take 8 (drop 16 bs);
     number_of_records := u16 24 bs;
     frame_number := u16 26 bs;
     total_frames := u16 28 bs;
     projector_id := u8 30 bs;
     reserved_b := u8 31 bs |}.
(** A header that no [read] has filled yet. *)
Definition blank : t := of_bytes (replicate 32 Byte.x00).
End ilda_header.

Module ILDAColor.
Record t : Type := { r : Z; g : Z; b : Z }.
Definition size : nat := 3.
Definition of_bytes (bs : list byte) : t :=
  {| r := u8 0 bs; g := u8 1 bs; b := u8 2 bs |}.
End ILDAColor.

Module ILDA2dCoordinatesIndexed.
Record t : Type := { x : Z; y : Z; status : Z; color : Z }.
Definition size : nat := 6.
Definition of_bytes (bs : list byte) : t :=
  {| x := i16 0 bs; y := i16 2 bs; status := u8 4 bs; color := u8 5 bs |}.
End ILDA2dCoordinatesIndexed.

Module ILDA2dCoordinatesTrue.
Record t : Type := { x : Z; y : Z; status : Z; b : Z; g : Z; r : Z }.
Definition size : nat := 8.
Definition of_bytes (bs : list byte) : t :=
  {| x := i16 0 bs; y := i16 2 bs; status := u8 4 bs;
     b := u8 5 bs; g := u8 6 bs; r := u8 7 bs |}.
End ILDA2dCoordinatesTrue.

Module ILDA3dCoordinatesIndexed.
Record t : Type := { x : Z; y : Z; z : Z; status : Z; color : Z }.
Definition size : nat := 8.
Definition of_bytes (bs : list byte) : t :=
  {| x := i16 0 bs; y := i16 2 bs; z := i16 4 bs;
     status := u8 6 bs; color := u8 7 bs |}.
End ILDA3dCoordinatesIndexed.

Module ILDA3dCoordinatesTrue.
Record t : Type := { x : Z; y : Z; z : Z; status : Z; b : Z; g : Z; r : Z }.
Definition size : nat := 10.
Definition of_bytes (bs : list byte) : t :=
  {| x := i16 0 bs; y := i16 2 bs; z := i16 4 bs; status := u8 6 bs;
     b := u8 7 bs; g := u8 8 bs; r := u8 9 bs |}.
End ILDA3dCoordinatesTrue.

End ILDA.

(** ** ilda_istream.cpp: the frame decoder *)

Module IStream.
Import Cxx.

Definition rgb (red green blue : Z) : ILDA.ILDAColor.t :=
  {| ILDA.ILDAColor.r := red; ILDA.ILDAColor.g := green;
     ILDA.ILDAColor.b := blue |}.

Definition default_palette : list ILDA.ILDAColor.t := [
  rgb 255 0 0; rgb 255 16 0; rgb 255 32 0; rgb 255 48 0;
  rgb 255 64 0; rgb 255 80 0; rgb 255 96 0; rgb 255 112 0;
  rgb 255 128 0; rgb 255 144 0; rgb 255 160 0; rgb 255 176 0;
  rgb 255 192 0; rgb 255 208 0; rgb 255 224 0; rgb 255 240 0;
  rgb 255 255 0; rgb 224 255 0; rgb 192 255 0; rgb 160 255 0;
  rgb 128 255 0; rgb 96 255 0; rgb 64 255 0; rgb 32 255 0;
  rgb 0 255 0; rgb 0 255 36; rgb 0 255 73; rgb 0 255 109;
  rgb 0 255 146; rgb 0 255 182; rgb 0 255 219; rgb 0 255 255;
  rgb 0 227 255; rgb 0 198 255; rgb 0 170 255; rgb 0 142 255;
  rgb 0 113 255; rgb 0 85 255; rgb 0 56 255; rgb 0 28 255;
  rgb 0 0 255; rgb 32 0 255; rgb 64 0 255; rgb 96 0 255;
  rgb 128 0 255; rgb 160 0 255; rgb 192 0 255; rgb 224 0 255;
  rgb 255 0 255; rgb 255 32 255; rgb 255 64 255; rgb 255 96 255;
  rgb 255 128 255; rgb 255 160 255; rgb 255 192 255; rgb 255 224 255;
  rgb 255 255 255; rgb 255 224 224; rgb 255 192 192; rgb 255 160 160;
  rgb 255 128 128; rgb 255 96 96; rgb 255 64 64; rgb 255 32 32
].

Record ILDAIStream : Type := mkIStream {
  input : list byte;                       (* what is left of the istream *)
  header : ILDA.ilda_header.t;
  current_frame : Frame;
  number_of_records : Z;                   (* uint16_t *)
  palettes : gmap Z (list ILDA.ILDAColor.t)
}.

(** The decoder as its constructor leaves it. *)
Definition open (bs : list byte) : ILDAIStream :=
  mkIStream bs ILDA.ilda_header.blank {| projector := 0; points := [] |} 0 ∅.

(** The template [read]: [size] bytes into the target, or the exception when
    fewer are left.  The result is the bytes read and the rest. *)
Definition read (size : nat) (bs : list byte)
  : result (list byte * list byte) :=
  if (length bs <? size)%nat then Fail UnexpectedEof
  else Ok (take size bs, drop size bs).

(** [std::string(p)] for a [char] pointer [p]: the characters before the
    first NUL of the memory that starts at [p]. *)
Fixpoint c_string (memory : list byte) : list byte :=
  match memory with
  | [] => []
  | c :: rest => if Byte.eqb c Byte.x00 then [] else c :: c_string rest
  end.

Definition magic : list byte := [Byte.x49; Byte.x4c; Byte.x44; Byte.x41].

(** [operator==] on two strings. *)
Fixpoint string_eqb (a b : list byte) : bool :=
  match a, b with
  | [], [] => true
  | c :: a', d :: b' => Byte.eqb c d && string_eqb a' b'
  | _, _ => false
  end.

(** [read(header)] fills the 32 bytes of the packed header with [raw].
    [header.ilda] is its first member and has no terminator of its own, so
    [string(header.ilda)] runs on through the members behind it, up to the
    first NUL byte of [raw].  A header without any NUL byte gives a string of
    at least 32 characters, whatever lies behind the object. *)
Definition readHeader (st : ILDAIStream) : result ILDAIStream :=
  '(raw, rest) ← read ILDA.ilda_header.size (input st);
  let h := ILDA.ilda_header.of_bytes raw in
  if negb (string_eqb (c_string raw) magic)
  then Fail CorruptFormat
  else Ok (mkIStream rest h (current_frame st)
             (ILDA.big_to_native (ILDA.ilda_header.number_of_records h))
             (palettes st)).

Definition set_input (bs : list byte) (st : ILDAIStream) : ILDAIStream :=
  mkIStream bs (header st) (current_frame st) (number_of_records st)
            (palettes st).

Definition set_frame (f : Frame) (st : ILDAIStream) : ILDAIStream :=
  mkIStream (input st) (header st) f (number_of_records st) (palettes st).

Definition set_palettes (m : gmap Z (list ILDA.ILDAColor.t))
  (st : ILDAIStream) : ILDAIStream :=
  mkIStream (input st) (header st) (current_frame st) (number_of_records st) m.

Definition push_back (p : Point) (st : ILDAIStream) : ILDAIStream :=
  set_frame {| projector := projector (current_frame st);
               points := points (current_frame st) ++ [p] |} st.

(** [current_frame.projector = header.projector_id; points.clear();] *)
Definition start_frame (st : ILDAIStream) : ILDAIStream :=
  set_frame {| projector := ILDA.ilda_header.projector_id (header st);
               points := [] |} st.

(** The palette the indexed decoders select before their loop. *)
Definition palette_of (st : ILDAIStream) : list ILDA.ILDAColor.t :=
  match palettes st !! ILDA.ilda_header.projector_id (header st) with
  | None => default_palette
  | Some p => p
  end.

Definition black_or (dark : bool) (red green blue : Z) (px py pz : Z)
  : Point :=
  if dark then {| x := px; y := py; z := pz; r := 0; g := 0; b := 0 |}
  else {| x := px; y := py; z := pz; r := red; g := green; b := blue |}.

Definition indexed_point (palette : list ILDA.ILDAColor.t)
  (px py pz status color : Z) : Point :=
  let entry := nth (Z.to_nat color) palette (rgb 0 0 0) in
  black_or ((Z.of_nat (length palette) <=? color) || ILDA.blanked status)
           (ILDA.ILDAColor.r entry) (ILDA.ILDAColor.g entry)
           (ILDA.ILDAColor.b entry) px py pz.

(** The loops [for (int i = 0; i < number_of_records; i++)], [n] iterations
    left. *)
Fixpoint loop3dCoordinatesIndexed (palette : list ILDA.ILDAColor.t) (n : nat)
  (st : ILDAIStream) : result ILDAIStream :=
  match n with
  | O => Ok st
  | S n' =>
      '(raw, rest) ← read ILDA.ILDA3dCoordinatesIndexed.size (input st);
      let c := ILDA.ILDA3dCoordinatesIndexed.of_bytes raw in
      let p := indexed_point palette
                 (ILDA.ILDA3dCoordinatesIndexed.x c)
                 (ILDA.ILDA3dCoordinatesIndexed.y c)
                 (ILDA.ILDA3dCoordinatesIndexed.z c)
                 (ILDA.ILDA3dCoordinatesIndexed.status c)
                 (ILDA.ILDA3dCoordinatesIndexed.color c) in
      loop3dCoordinatesIndexed palette n' (push_back p (set_input rest st))
  end.

Definition frameFrom3dCoordinatesIndexed (st : ILDAIStream)
  : result ILDAIStream :=
  let st := start_frame st in
  loop3dCoordinatesIndexed (palette_of st) (Z.to_nat (number_of_records st)) st.

Fixpoint loop2dCoordinatesIndexed (palette : list ILDA.ILDAColor.t) (n : nat)
  (st : ILDAIStream) : result ILDAIStream :=
  match n with
  | O => Ok st
  | S n' =>
      '(raw, rest) ← read ILDA.ILDA2dCoordinatesIndexed.size (input st);
      let c := ILDA.ILDA2dCoordinatesIndexed.of_bytes raw in
      let p := indexed_point palette
                 (ILDA.ILDA2dCoordinatesIndexed.x c)
                 (ILDA.ILDA2dCoordinatesIndexed.y c)
                 0
                 (ILDA.ILDA2dCoordinatesIndexed.status c)
                 (ILDA.ILDA2dCoordinatesIndexed.color c) in
      loop2dCoordinatesIndexed palette n' (push_back p (set_input rest st))
  end.

Definition frameFrom2dCoordinatesIndexed (st : ILDAIStream)
  : result ILDAIStream :=
  let st := start_frame st in
  loop2dCoordinatesIndexed (palette_of st) (Z.to_nat (number_of_records st)) st.

(** [palettes[id][i] = color], member by member. *)
Definition store_color (i : nat) (color : ILDA.ILDAColor.t)
  (st : ILDAIStream) : ILDAIStream :=
  let id := ILDA.ilda_header.projector_id (header st) in
  set_palettes
    (<[id := <[i := color]> (default [] (palettes st !! id))]> (palettes st))
    st.

Fixpoint loopColorPalette (n : nat) (i : nat) (st : ILDAIStream)
  : result ILDAIStream :=
  match n with
  | O => Ok st
  | S n' =>
      '(raw, rest) ← read ILDA.ILDAColor.size (input st);
      let color := ILDA.ILDAColor.of_bytes raw in
      loopColorPalette n' (S i) (store_color i color (set_input rest st))
  end.

(** [clear()] then [resize(number_of_records)] leaves that many
    value-initialised entries. *)
Definition setColorPalette (st : ILDAIStream) : result ILDAIStream :=
  let id := ILDA.ilda_header.projector_id (header st) in
  let n := Z.to_nat (number_of_records st) in
  let st := set_palettes (<[id := replicate n (rgb 0 0 0)]> (palettes st)) st in
  loopColorPalette n 0 st.

Definition true_point (px py pz status red green blue : Z) : Point :=
  black_or (ILDA.blanked status) red green blue px py pz.

Fixpoint loop3dCoordinatesTrue (n : nat) (st : ILDAIStream)
  : result ILDAIStream :=
  match n with
  | O => Ok st
  | S n' =>
      '(raw, rest) ← read ILDA.ILDA3dCoordinatesTrue.size (input st);
      let c := ILDA.ILDA3dCoordinatesTrue.of_bytes raw in
      let p := true_point
                 (ILDA.ILDA3dCoordinatesTrue.x c)
                 (ILDA.ILDA3dCoordinatesTrue.y c)
                 (ILDA.ILDA3dCoordinatesTrue.z c)
                 (ILDA.ILDA3dCoordinatesTrue.status c)
                 (ILDA.ILDA3dCoordinatesTrue.r c)
                 (ILDA.ILDA3dCoordinatesTrue.g c)
                 (ILDA.ILDA3dCoordinatesTrue.b c) in
      loop3dCoordinatesTrue n' (push_back p (set_input rest st))
  end.

Definition frameFrom3dCoordinatesTrue (st : ILDAIStream)
  : result ILDAIStream :=
  loop3dCoordinatesTrue (Z.to_nat (number_of_records st)) (start_frame st).

Fixpoint loop2dCoordinatesTrue (n : nat) (st : ILDAIStream)
  : result ILDAIStream :=
  match n with
  | O => Ok st
  | S n' =>
      '(raw, rest) ← read ILDA.ILDA2dCoordinatesTrue.size (input st);
      let c := ILDA.ILDA2dCoordinatesTrue.of_bytes raw in
      let p := true_point
                 (ILDA.ILDA2dCoordinatesTrue.x c)
                 (ILDA.ILDA2dCoordinatesTrue.y c)
                 0
                 (ILDA.ILDA2dCoordinatesTrue.status c)
                 (ILDA.ILDA2dCoordinatesTrue.r c)
                 (ILDA.ILDA2dCoordinatesTrue.g c)
                 (ILDA.ILDA2dCoordinatesTrue.b c) in
      loop2dCoordinatesTrue n' (push_back p (set_input rest st))
  end.

Definition frameFrom2dCoordinatesTrue (st : ILDAIStream)
  : result ILDAIStream :=
  loop2dCoordinatesTrue (Z.to_nat (number_of_records st)) (start_frame st).

(** [nextFrame]: [None] is the null pointer, [Some f] the frame that the
    returned pointer to [current_frame] shows the caller. *)
Definition nextFrame (st : ILDAIStream)
  : result (option Frame * ILDAIStream) :=
  st ← readHeader st;
  if number_of_records st =? 0 then Ok (None, st)
  else
    let format := ILDA.ilda_header.format (header st) in
    st' ←
      (if format =? ILDA.FORMAT_3D_COORDINATES_INDEXED
       then frameFrom3dCoordinatesIndexed st
       else if format =? ILDA.FORMAT_2D_INDEXED
       then frameFrom3dCoordinatesIndexed st
       else if format =? ILDA.FORMAT_COLOR_PALETTE
       then setColorPalette st
       else if format =? ILDA.FORMAT_COORDINATES_3D_TRUE
       then frameFrom3dCoordinatesTrue st
       else if format =? ILDA.FORMAT_COORDINATES_2D_TRUE
       then frameFrom2dCoordinatesTrue st
       else Fail UnsupportedFormat);
    Ok (Some (current_frame st'), st').

(** *** The records of a block, as the loops meet them *)

Fixpoint read_colors (n : nat) (bs : list byte) : list ILDA.ILDAColor.t :=
  match n with
  | O => []
  | S n' =>
      ILDA.ILDAColor.of_bytes (take ILDA.ILDAColor.size bs) ::
      read_colors n' (drop ILDA.ILDAColor.size bs)
  end.

Fixpoint read_3d_indexed (n : nat) (bs : list byte)
  : list ILDA.ILDA3dCoordinatesIndexed.t :=
  match n with
  | O => []
  | S n' =>
      ILDA.ILDA3dCoordinatesIndexed.of_bytes
        (take ILDA.ILDA3dCoordinatesIndexed.size bs) ::
      read_3d_indexed n' (drop ILDA.ILDA3dCoordinatesIndexed.size bs)
  end.

Definition point_of_3d_indexed (palette : list ILDA.ILDAColor.t)
  (c : ILDA.ILDA3dCoordinatesIndexed.t) : Point :=
  indexed_point palette
    (ILDA.ILDA3dCoordinatesIndexed.x c) (ILDA.ILDA3dCoordinatesIndexed.y c)
    (ILDA.ILDA3dCoordinatesIndexed.z c)
    (ILDA.ILDA3dCoordinatesIndexed.status c)
    (ILDA.ILDA3dCoordinatesIndexed.color c).

(** *** Building input files *)

(** A big-endian 16-bit field, as ILDA files store their counts. *)
Definition be16 (v : Z) : list byte := [byte.of_Z (v / 256); byte.of_Z v].
(** A 16-bit field in the order of the host. *)
Definition ne16 (v : Z) : list byte := le_split 2 v.

(** A header with the magic tag, zeroed reserved, name and company fields
    and the given format code, record count and projector id. *)
Definition header_block (format count projector_id : Z) : list byte :=
  magic ++ replicate 3 Byte.x00 ++ [byte.of_Z format] ++
  replicate 16 Byte.x00 ++ be16 count ++ be16 0 ++ be16 1 ++
  [byte.of_Z projector_id; Byte.x00].

Definition color_record (red green blue : Z) : list byte :=
  [byte.of_Z red; byte.of_Z green; byte.of_Z blue].

Definition indexed_2d_record (px py status color : Z) : list byte :=
  ne16 px ++ ne16 py ++ [byte.of_Z status; byte.of_Z color].

Definition indexed_3d_record (px py pz status color : Z) : list byte :=
  ne16 px ++ ne16 py ++ ne16 pz ++ [byte.of_Z status; byte.of_Z color].

Definition returned_frame (outcome : result (option Frame * ILDAIStream))
  : result (option Frame) :=
  '(frame, _) ← outcome; Ok frame.

Definition remaining_input (outcome : result (option Frame * ILDAIStream))
  : result (list byte) :=
  '(_, st) ← outcome; Ok (input st).


(** A palette block for source 7 with the entries (255,0,0) and (0,255,0),
    then an indexed 3D block for source 7 with one record that is not
    blanked and has colour index 1. *)
Definition palette_scenario : list byte :=
  header_block 2 2 7 ++ color_record 255 0 0 ++ color_record 0 255 0 ++
  header_block 0 1 7 ++ indexed_3d_record 1 2 3 0 1.


(** An indexed 2D block with one record of six bytes, then the closing
    header with a record count of zero. *)
Definition indexed_2d_file : list byte :=
  header_block 1 1 0 ++ indexed_2d_record 1 2 0 5 ++ header_block 0 0 0.

(** A header with the magic tag whose first reserved byte is 1. *)
Definition reserved_byte_header : list byte :=
  magic ++ [Byte.x01] ++ replicate 27 Byte.x00.

End IStream.

(** * Properties *)

(** ** Sequencing of results *)

Module ResultFacts.

Lemma bind_ok {A B : Type} (f : A -> result B) (a : A) : Ok a ≫= f = f a.
Proof. reflexivity. Qed.

Lemma bind_inv {A B : Type} (m : result A) (f : A -> result B) (v : B) :
  m ≫= f = Ok v -> exists a, m = Ok a /\ f a = Ok v.
Proof. destruct m as [a|e]; simpl; [eauto | discriminate]. Qed.

(** Split a successful sequence [H] into its first step and the rest. *)
Ltac bind_inv H :=
  let a := fresh "a" in
  let Ha := fresh "Ha" in
  apply bind_inv in H as (a & Ha & H).

End ResultFacts.

(** ** The fair remainder distribution *)

Module WavArith.
Import Cxx Wav ResultFacts.

Lemma to_int_ok (v : Z) : INT_MIN <= v <= INT_MAX -> to_int v = Ok v.
Proof.
  intros [Hlo Hhi]. unfold to_int, in_int.
  apply Z.leb_le in Hlo. apply Z.leb_le in Hhi.
  now rewrite Hlo, Hhi.
Qed.

Lemma to_int_inv (v w : Z) : to_int v = Ok w -> w = v /\ INT_MIN <= v <= INT_MAX.
Proof.
  unfold to_int, in_int. intros H.
  destruct (INT_MIN <=? v) eqn:Hlo; destruct (v <=? INT_MAX) eqn:Hhi;
    simpl in H; try discriminate.
  apply Z.leb_le in Hlo. apply Z.leb_le in Hhi.
  inversion H. lia.
Qed.

(** With a remainder below the group count, the running quotient
    [(i * rest) / groups] grows by one exactly where the running remainder
    drops. *)
Lemma quotient_step (rest groups i : Z) :
  0 <= rest < groups -> 0 <= i ->
  ((i + 1) * rest) / groups - (i * rest) / groups =
  if (i * rest) mod groups >? ((i + 1) * rest) mod groups then 1 else 0.
Proof.
  intros Hr Hi.
  assert (Hg : 0 < groups) by lia.
  pose proof (Z.div_mod (i * rest) groups ltac:(lia)) as E1.
  pose proof (Z.div_mod ((i + 1) * rest) groups ltac:(lia)) as E2.
  pose proof (Z.mod_pos_bound (i * rest) groups Hg) as B1.
  pose proof (Z.mod_pos_bound ((i + 1) * rest) groups Hg) as B2.
  set (q1 := (i * rest) / groups) in *.
  set (q2 := ((i + 1) * rest) / groups) in *.
  set (a := (i * rest) mod groups) in *.
  set (c := ((i + 1) * rest) mod groups) in *.
  assert (Hd : groups * (q2 - q1) = a + rest - c) by lia.
  assert (Hq : q2 - q1 = 0 \/ q2 - q1 = 1) by nia.
  destruct (a >? c) eqn:Hcmp.
  - apply Z.gtb_lt in Hcmp. destruct Hq as [Hq|Hq]; [|lia]. 
    rewrite Hq in Hd. lia.
  - assert (a <= c) by (destruct (Z.gtb_spec a c); [discriminate | lia]).
    destruct Hq as [Hq|Hq]; [lia|]. rewrite Hq in Hd. lia.
Qed.

Lemma extra_unit_quotient (T G i : Z) :
  1 <= G -> 0 <= i ->
  extra_unit T G i = ((i + 1) * (T mod G)) / G - (i * (T mod G)) / G.
Proof.
  intros HG Hi. unfold extra_unit.
  rewrite quotient_step; [reflexivity | | lia].
  apply Z.mod_pos_bound. lia.
Qed.

Lemma extra_unit_range (T G i : Z) : 0 <= extra_unit T G i <= 1.
Proof. unfold extra_unit. destruct (_ >? _); lia. Qed.

Lemma int_add_ok (a c : Z) :
  INT_MIN <= a + c <= INT_MAX -> int_add a c = Ok (a + c).
Proof. apply to_int_ok. Qed.

Lemma int_mul_ok (a c : Z) :
  INT_MIN <= a * c <= INT_MAX -> int_mul a c = Ok (a * c).
Proof. apply to_int_ok. Qed.

Lemma int_div_ok (a c : Z) :
  0 <= a <= INT_MAX -> 0 < c -> int_div a c = Ok (a / c).
Proof.
  intros Ha Hc. unfold int_div.
  replace (c =? 0) with false by (symmetry; apply Z.eqb_neq; lia).
  rewrite Z.quot_div_nonneg by lia.
  apply to_int_ok. unfold INT_MIN, INT_MAX in *.
  assert (0 <= a / c) by (apply Z.div_pos; lia).
  assert (a / c <= a) by (apply Z.div_le_upper_bound; [lia|nia]).
  lia.
Qed.

Lemma int_rem_ok (a c : Z) :
  0 <= a -> 0 < c -> int_rem a c = Ok (a mod c).
Proof.
  intros Ha Hc. unfold int_rem.
  replace (c =? 0) with false by (symmetry; apply Z.eqb_neq; lia).
  replace (c =? -1) with false by (symmetry; apply Z.eqb_neq; lia).
  rewrite andb_false_r, Z.rem_mod_nonneg by lia. reflexivity.
Qed.

Lemma groupSizeOfNthGroup_fair (T G i : Z) :
  0 <= T <= INT_MAX -> 1 <= G <= INT_MAX -> G * (T mod G) <= INT_MAX -> 0 <= i < G ->
  groupSizeOfNthGroup T G i = Ok (fair_size T G i).
Proof.
  intros HT HG Hprod Hi.
  assert (Hr : 0 <= T mod G < G) by (apply Z.mod_pos_bound; lia).
  assert (Hlo1 : 0 <= i * (T mod G)) by (apply Z.mul_nonneg_nonneg; lia).
  assert (Hlo2 : 0 <= (i + 1) * (T mod G))
    by (apply Z.mul_nonneg_nonneg; lia).
  assert (Hhi1 : i * (T mod G) <= G * (T mod G))
    by (apply Z.mul_le_mono_nonneg_r; lia).
  assert (Hhi2 : (i + 1) * (T mod G) <= G * (T mod G))
    by (apply Z.mul_le_mono_nonneg_r; lia).
  unfold groupSizeOfNthGroup.
  rewrite int_div_ok, bind_ok by lia.
  rewrite int_rem_ok, bind_ok by lia.
  rewrite (int_mul_ok i), bind_ok by (unfold INT_MIN, INT_MAX in *; lia).
  rewrite (int_rem_ok (i * _)), bind_ok by lia.
  rewrite (int_add_ok i 1), bind_ok by (unfold INT_MIN, INT_MAX in *; lia).
  rewrite (int_mul_ok (i + 1)), bind_ok
    by (unfold INT_MIN, INT_MAX in *; lia).
  rewrite (int_rem_ok ((i + 1) * _)), bind_ok by lia.
  unfold fair_size, extra_unit.
  destruct (_ >? _) eqn:Hcmp.
  - apply int_add_ok. unfold INT_MIN, INT_MAX in *.
    assert (0 <= T / G) by (apply Z.div_pos; lia).
    split; [lia|].
    (* an extra unit needs a nonzero remainder, hence at least two groups *)
    assert (G = 1 \/ 2 <= G) as [->|HG2] by lia.
    + rewrite !Z.mod_1_r in Hcmp. discriminate.
    + pose proof (Z.mul_div_le T G ltac:(lia)). nia.
  - now rewrite Z.add_0_r.
Qed.

(** The sizes of the first [n] groups add up to [n] base shares and the
    running quotient at [n]. *)
Lemma groupSizes_prefix (T G : Z) (n : nat) :
  0 <= T <= INT_MAX -> 1 <= G <= INT_MAX -> G * (T mod G) <= INT_MAX ->
  Z.of_nat n <= G ->
  exists sizes,
    groupSizes T G n = Ok sizes /\
    length sizes = n /\
    (forall k, (k < n)%nat -> sizes !! k = Some (fair_size T G (Z.of_nat k))) /\
    sum_list sizes = Z.of_nat n * (T / G) + (Z.of_nat n * (T mod G)) / G.
Proof.
  intros HT HG Hprod. induction n as [|n IH]; intros Hn.
  - exists []. split; [reflexivity|]. split; [reflexivity|].
    split; [intros k Hk; lia | reflexivity].
  - destruct IH as (sizes & Hs & Hlen & Hnth & Hsum); [lia|].
    exists (sizes ++ [fair_size T G (Z.of_nat n)]).
    split; [|split; [|split]].
    + cbn [groupSizes]. rewrite Hs, bind_ok.
      rewrite groupSizeOfNthGroup_fair by lia. reflexivity.
    + rewrite length_app, Hlen. simpl. lia.
    + intros k Hk. destruct (decide (k = n)) as [->|Hne].
      * rewrite lookup_app_r by lia. rewrite Hlen, Nat.sub_diag. reflexivity.
      * rewrite lookup_app_l by lia. apply Hnth. lia.
    + unfold sum_list in *. rewrite fold_right_app. simpl.
      assert (Hshift : forall (l : list Z) (c : Z),
                 fold_right Z.add c l = fold_right Z.add 0 l + c).
      { induction l as [|h l IHl]; intros c; simpl; [lia|]. rewrite IHl. lia. }
      rewrite Hshift, Hsum. unfold fair_size.
      rewrite extra_unit_quotient by lia.
      replace (Z.of_nat (S n)) with (Z.of_nat n + 1) by lia. lia.
Qed.


(** C1 (amended): for a total [T >= 0] and a group count [G >= 1] whose
    product [G * (T mod G)] stays within [int], every call of
    [groupSizeOfNthGroup T G i] with [0 <= i < G] returns [T div G] plus one
    extra unit exactly when [(i * (T mod G)) mod G > ((i+1) * (T mod G)) mod G];
    the sizes over all [i] in [[0, G)] add up to [T], and any two of them
    differ by at most one. *)
Theorem groupSize_fair_distribution (T G : Z) :
  0 <= T <= INT_MAX -> 1 <= G <= INT_MAX -> G * (T mod G) <= INT_MAX ->
  exists sizes : list Z,
    groupSizes T G (Z.to_nat G) = Ok sizes /\
    (forall i, 0 <= i < G ->
       groupSizeOfNthGroup T G i = Ok (fair_size T G i) /\
       sizes !! Z.to_nat i = Some (fair_size T G i)) /\
    sum_list sizes = T /\
    (forall a c, a ∈ sizes -> c ∈ sizes -> a - c <= 1).
Proof.
  intros HT HG Hprod.
  destruct (groupSizes_prefix T G (Z.to_nat G) HT HG Hprod ltac:(lia))
    as (sizes & Hs & Hlen & Hnth & Hsum).
  exists sizes. split; [exact Hs|]. split; [|split].
  - intros i Hi. split; [apply groupSizeOfNthGroup_fair; assumption|].
    rewrite Hnth by lia. now rewrite Z2Nat.id by lia.
  - rewrite Hsum, Z2Nat.id by lia.
    rewrite Z.mul_comm, (Z.mul_comm G (T mod G)), Z.div_mul by lia.
    symmetry. rewrite Z.mul_comm. apply Z.div_mod. lia.
  - assert (Hshape : forall v, v ∈ sizes -> T / G <= v <= T / G + 1).
    { intros v Hv. apply list_elem_of_lookup in Hv as [k Hk].
      assert (k < Z.to_nat G)%nat
        by (rewrite <- Hlen; eapply lookup_lt_Some; eassumption).
      rewrite Hnth in Hk by assumption. inversion Hk. unfold fair_size.
      pose proof (extra_unit_range T G (Z.of_nat k)). lia. }
    intros a c Ha Hc. apply Hshape in Ha. apply Hshape in Hc. lia.
Qed.

Lemma groupSize_fair_distribution_witness :
  exists sizes : list Z,
    groupSizes 10 3 (Z.to_nat 3) = Ok sizes /\
    (forall i, 0 <= i < 3 ->
       groupSizeOfNthGroup 10 3 i = Ok (fair_size 10 3 i) /\
       sizes !! Z.to_nat i = Some (fair_size 10 3 i)) /\
    sum_list sizes = 10 /\
    (forall a c, a ∈ sizes -> c ∈ sizes -> a - c <= 1).
Proof.
  apply (groupSize_fair_distribution 10 3); vm_compute; intuition discriminate.
Defined.

(** C1 as stated fails once a product leaves [int]: with total 50001 and
    100000 groups, the product [(42948 + 1) * 50001] is above [INT_MAX]. *)
Lemma groupSize_overflow_counterexample :
  0 <= 50001 /\ 1 <= 100000 /\ 0 <= 42948 < 100000 /\
  groupSizeOfNthGroup 50001 100000 42948 <>
  Ok (fair_size 50001 100000 42948).
Proof.
  repeat split; try lia. vm_compute. discriminate.
Qed.

(** C4 (amended): the distribution of 10 over 3 groups gives the sizes
    3, 3 and 4, the extra unit going to the last group. *)
Theorem groupSize_10_3 :
  groupSizeOfNthGroup 10 3 0 = Ok 3 /\
  groupSizeOfNthGroup 10 3 1 = Ok 3 /\
  groupSizeOfNthGroup 10 3 2 = Ok 4.
Proof. repeat split. Qed.

(** C4 as stated: the sizes are not 4, 3, 3. *)
Lemma groupSize_10_3_counterexample :
  ~ (groupSizeOfNthGroup 10 3 0 = Ok 4 /\
     groupSizeOfNthGroup 10 3 1 = Ok 3 /\
     groupSizeOfNthGroup 10 3 2 = Ok 3).
Proof. intros [H _]. vm_compute in H. discriminate. Qed.

End WavArith.

(** ** The scheduler: colour scaling, interpolation and skipped points *)

Module WavFacts.
Import Cxx Wav ResultFacts WavArith.

Lemma color_signal_byte (c : Z) : 0 <= c <= 255 -> color_signal c = c * 128.
Proof.
  intros Hc. unfold color_signal, int16_t, INT16_MAX, UINT8_MAX.
  change (32767 ÷ 255) with 128.
  rewrite Z.mod_small by lia. lia.
Qed.

(** C5 (amended): in every sub-sample the red, green and blue signals are
    the 8-bit channel value times [32767 / 255] with the quotient taken
    first, that is, times 128; a channel value of 255 maps to 32640. *)
Theorem color_channels_scaled (coordinate : Point)
  (lx ly lz dx dy dz p k : Z) (v : SubSample) :
  0 <= r coordinate <= 255 ->
  0 <= g coordinate <= 255 ->
  0 <= b coordinate <= 255 ->
  sub_sample coordinate lx ly lz dx dy dz p k = Ok v ->
  signal_value "r" v = Ok (r coordinate * 128) /\
  signal_value "g" v = Ok (g coordinate * 128) /\
  signal_value "b" v = Ok (b coordinate * 128) /\
  color_signal 255 = 32640.
Proof.
  intros Hr Hg Hb H. unfold sub_sample in H.
  bind_inv H. bind_inv H. bind_inv H. inversion H; subst v; clear H.
  unfold signal_value; simpl.
  rewrite !color_signal_byte by assumption. auto.
Qed.

Lemma color_channels_scaled_witness :
  signal_value "r" {| ix := 50; iy := 0; iz := 0; sl := 32767;
                      sr := 32640; sg := 16384; sb := 0 |} = Ok (255 * 128) /\
  signal_value "g" {| ix := 50; iy := 0; iz := 0; sl := 32767;
                      sr := 32640; sg := 16384; sb := 0 |} = Ok (128 * 128) /\
  signal_value "b" {| ix := 50; iy := 0; iz := 0; sl := 32767;
                      sr := 32640; sg := 16384; sb := 0 |} = Ok (0 * 128) /\
  color_signal 255 = 32640.
Proof.
  apply (color_channels_scaled (mkPoint 100 0 0 255 128 0) 0 0 0 100 0 0 5 10);
    simpl; try lia; reflexivity.
Defined.

(** C5 as stated: a full red channel comes out as 32640, where
    [255 * 32767 / 255] is 32767. *)
Lemma color_255_counterexample :
  sub_sample (mkPoint 100 0 0 255 0 0) 0 0 0 100 0 0 5 10 ≫= signal_value "r"
    = Ok 32640 /\
  255 * 32767 ÷ 255 = 32767.
Proof. split; reflexivity. Qed.

(** Where the step from the last position fits an [int16_t], the
    interpolation is the truncated linear one. *)
Lemma interpolate_linear (last current p k : Z) :
  -32768 <= last <= 32767 -> -32768 <= current <= 32767 ->
  -32768 <= current - last <= 32767 ->
  1 <= p <= k -> k <= 65535 ->
  interpolate last (int16_t (current - last)) p k =
  Ok (last + (current - last) * p ÷ k).
Proof.
  intros Hl Hc Hd Hp Hk.
  assert (Hfit : int16_t (current - last) = current - last).
  { unfold int16_t. rewrite Z.mod_small by lia. lia. }
  rewrite Hfit. set (d := current - last) in *.
  assert (Hq : (0 <= d /\ 0 <= d * p ÷ k <= d) \/
               (d < 0 /\ d <= d * p ÷ k <= 0)).
  { destruct (Z.le_gt_cases 0 d) as [Hd0|Hd0]; [left | right].
    - split; [assumption|].
      rewrite Z.quot_div_nonneg by nia.
      split; [apply Z.div_pos; nia | apply Z.div_le_upper_bound; nia].
    - split; [assumption|].
      replace (d * p) with (- ((- d) * p)) by lia.
      rewrite Z.quot_opp_l by lia.
      rewrite Z.quot_div_nonneg by nia.
      assert (0 <= - d * p / k) by (apply Z.div_pos; nia).
      assert (- d * p / k <= - d) by (apply Z.div_le_upper_bound; nia).
      lia. }
  unfold interpolate.
  rewrite int_mul_ok, bind_ok by (unfold INT_MIN, INT_MAX; nia).
  unfold int_div.
  replace (k =? 0) with false by (symmetry; apply Z.eqb_neq; lia).
  rewrite to_int_ok, bind_ok by (unfold INT_MIN, INT_MAX; lia).
  rewrite int_add_ok, bind_ok by (unfold INT_MIN, INT_MAX; lia).
  f_equal. unfold int16_t.
  rewrite Z.mod_small by lia. lia.
Qed.

(** The scenario of the specification: from (0,0,0) to (100,0,0) in ten
    sub-steps, one sample each. *)
Example interpolation_scenario :
  run_samples {| fps := 10; signals := "x"; invert := ""; rate := 100;
                 pps := 100 |}
              [ {| projector := 0; points := [mkPoint 100 0 0 255 0 0] |} ]
  = Ok [10; 20; 30; 40; 50; 60; 70; 80; 90; 100].
Proof. vm_compute. reflexivity. Qed.

(** C6 at a failing input: two points at x = -20000 and x = 20000, two
    sub-steps each.  The step of 40000 does not fit the [int16_t] that holds
    it and becomes -25536, so the first sub-step of the second point is
    emitted at -32768, where [last + (current - last) * p / k] is 0. *)
Theorem interpolation_wraps :
  run_samples {| fps := 1; signals := "x"; invert := ""; rate := 4;
                 pps := 4 |}
              [ {| projector := 0;
                   points := [mkPoint (-20000) 0 0 255 255 255;
                              mkPoint 20000 0 0 255 255 255] |} ]
  = Ok [-10000; -20000; -32768; 20000] /\
  -20000 + (20000 - -20000) * 1 ÷ 2 = 0.
Proof. split; vm_compute; reflexivity. Qed.

(** *** Which points reach the output *)









(** *** The size fields of the finished file *)

Lemma carried_refl (st : Locals) : carried st st.
Proof. unfold carried. auto. Qed.

Lemma carried_trans (a c d : Locals) :
  carried a c -> carried c d -> carried a d.
Proof. unfold carried. intuition congruence. Qed.

Lemma store_sample_carried (v : Z) (st st' : Locals) :
  store_sample v st = Ok st' -> carried st st'.
Proof.
  unfold store_sample. destruct (_ && _) eqn:Hin; [|discriminate].
  intros H. inversion H; subst st'; clear H.
  apply andb_prop in Hin as [Hlo Hhi].
  apply Z.leb_le in Hlo. apply Z.ltb_lt in Hhi.
  unfold carried, buffer_ok. simpl. rewrite length_insert.
  repeat split; lia.
Qed.

Lemma emit_signals_carried (sigs : list ascii) (v : SubSample)
  (st st' : Locals) :
  emit_signals sigs v st = Ok st' -> carried st st'.
Proof.
  revert st. induction sigs as [|s sigs IH]; intros st H; simpl in H.
  - inversion H. apply carried_refl.
  - bind_inv H. bind_inv H.
    eapply carried_trans; [eapply store_sample_carried | apply IH]; eassumption.
Qed.

Lemma emit_samples_carried (n : nat) (sigs : list ascii) (v : SubSample)
  (st st' : Locals) :
  emit_samples n sigs v st = Ok st' -> carried st st'.
Proof.
  revert st. induction n as [|n IH]; intros st H; simpl in H.
  - inversion H. apply carried_refl.
  - bind_inv H.
    eapply carried_trans; [eapply emit_signals_carried | apply IH]; eassumption.
Qed.

Lemma sub_steps_carried (cfg : ILDAWavOutput) (coordinate : Point)
  (dx dy dz k : Z) (n : nat) (p : Z) (st st' : Locals) :
  sub_steps cfg coordinate dx dy dz k n p st = Ok st' -> carried st st'.
Proof.
  revert p st. induction n as [|n IH]; intros p st H; simpl in H.
  - inversion H. apply carried_refl.
  - do 4 bind_inv H.
    apply emit_samples_carried in Ha1. apply IH in H.
    eapply carried_trans; [exact Ha1|].
    eapply carried_trans; [|exact H].
    unfold carried, buffer_ok. simpl. auto.
Qed.

Lemma location_carried (cfg : ILDAWavOutput)
  (point_count location_count i : Z) (coordinate : Point) (st st' : Locals) :
  location cfg point_count location_count i coordinate st = Ok st' ->
  carried st st'.
Proof.
  unfold location. intros H. bind_inv H.
  destruct (a =? 0).
  - inversion H. apply carried_refl.
  - bind_inv H. inversion H; subst st'; clear H.
    apply sub_steps_carried in Ha0.
    eapply carried_trans; [exact Ha0|].
    unfold carried, buffer_ok. simpl. auto.
Qed.

Lemma locations_carried (cfg : ILDAWavOutput)
  (point_count location_count i : Z) (pts : list Point) (st st' : Locals) :
  locations cfg point_count location_count i pts st = Ok st' ->
  carried st st'.
Proof.
  revert i st. induction pts as [|c pts IH]; intros i st H; simpl in H.
  - inversion H. apply carried_refl.
  - bind_inv H.
    eapply carried_trans; [eapply location_carried | eapply IH]; eassumption.
Qed.

Lemma length_sample_bytes (samples : list Z) :
  length (sample_bytes samples) = (2 * length samples)%nat.
Proof.
  unfold sample_bytes. induction samples as [|v l IH]; [reflexivity|].
  cbn [map concat]. rewrite length_app, length_le_split, IH.
  simpl length. lia.
Qed.

Lemma run_frame_file_ok (cfg : ILDAWavOutput) (frame : Frame)
  (st st' : Locals) :
  file_ok st -> run_frame cfg frame st = Ok st' -> file_ok st'.
Proof.
  intros (Hpos & Hlen & Htotal) H. unfold run_frame in H.
  bind_inv H. bind_inv H. bind_inv H.
  apply bind_inv in H as (st1 & Hloop & H).
  apply bind_inv in H as (bytes & Hbytes & H).
  apply bind_inv in H as (new_total & Hnew & H).
  bind_inv H. inversion H; subst st'; clear H.
  apply locations_carried in Hloop as (Hout & Htot & _ & Hbuf).
  assert (Hok : buffer_ok st1).
  { apply Hbuf. unfold buffer_ok. simpl. lia. }
  destruct (a =? 0); simpl in Hout, Htot;
    rewrite Hout, Htot in *;
    apply to_int_inv in Hbytes as [-> _];
    apply to_int_inv in Hnew as [-> _];
    unfold file_ok, ostream_write, buffer_ok in *; simpl;
    rewrite Hpos, firstn_all, skipn_all2 by lia;
    rewrite !length_app, length_sample_bytes, length_take; simpl;
    repeat split; lia.
Qed.

Lemma run_frames_file_ok (cfg : ILDAWavOutput) (input : list Frame)
  (st st' : Locals) :
  file_ok st -> run_frames cfg input st = Ok st' -> file_ok st'.
Proof.
  revert st. induction input as [|f input IH]; intros st Hok H; simpl in H.
  - inversion H. now subst.
  - bind_inv H. eapply IH; [|exact H].
    eapply run_frame_file_ok; eassumption.
Qed.

Lemma header_length (h : WavHeader.t) : length (WavHeader.bytes h) = 44%nat.
Proof. reflexivity. Qed.

Lemma header_size_fields (h : WavHeader.t) (data : list byte) :
  WavHeader.declared_chunk_size (WavHeader.bytes h ++ data) =
    WavHeader.chunk_size h mod 2 ^ 32 /\
  WavHeader.declared_data_size (WavHeader.bytes h ++ data) =
    WavHeader.data_size h mod 2 ^ 32.
Proof.
  unfold WavHeader.declared_chunk_size, WavHeader.declared_data_size.
  split.
  - change (take 4 (drop 4 (WavHeader.bytes h ++ data)))
      with (le_split 4 (WavHeader.chunk_size h)).
    apply le_combine_split.
  - change (take 4 (drop 40 (WavHeader.bytes h ++ data)))
      with (le_split 4 (WavHeader.data_size h)).
    apply le_combine_split.
Qed.

(** C9: whenever [run] completes, the data length in the rewritten header
    is the number of bytes that follow the header in the file, and the
    chunk size is that length plus 36. *)
Theorem header_declares_written_bytes (cfg : ILDAWavOutput)
  (input : list Frame) (st : Locals) (out : ostream) :
  run cfg input empty_file = Ok (st, out) ->
  WavHeader.declared_data_size (content out) =
    Z.of_nat (length (content out)) - 44 /\
  WavHeader.declared_chunk_size (content out) =
    WavHeader.declared_data_size (content out) + 36.
Proof.
  intros H. unfold run in H.
  apply bind_inv in H as (h0 & Hh0 & H). simpl in H.
  apply bind_inv in H as (capacity & Hcap & H).
  destruct (capacity <? 0); [discriminate|].
  apply bind_inv in H as (st' & Hrun & H).
  apply bind_inv in H as (h1 & Hh1 & H).
  simpl in H. inversion H; subst st out; clear H.
  assert (Hfile : file_ok st').
  { eapply run_frames_file_ok; [|exact Hrun].
    unfold file_ok. repeat split; reflexivity. }
  destruct Hfile as (Hpos & Hlen & Htotal).
  unfold WavHeader.update in Hh1.
  apply bind_inv in Hh1 as (chunk & Hchunk & Hh1).
  apply to_int_inv in Hchunk as [-> Hrange].
  inversion Hh1; subst h1; clear Hh1.
  unfold ostream_write, ostream_seekp. cbn [content position take].
  rewrite app_nil_l.
  match goal with |- context [WavHeader.bytes ?h ++ ?d] =>
    pose proof (header_size_fields h d) as [Hc Hd];
    assert (Hl : length (WavHeader.bytes h ++ d) = length (content (output st')))
  end.
  { rewrite length_app, length_drop, !header_length. simpl. lia. }
  rewrite Hc, Hd, Hl. cbn [WavHeader.chunk_size WavHeader.data_size].
  unfold uint32_t, INT_MIN, INT_MAX in *.
  change (2 ^ 32) with 4294967296.
  rewrite !Z.mod_mod by lia.
  rewrite !Z.mod_small by lia. lia.
Qed.

Lemma header_declares_written_bytes_witness :
  exists (st : Locals) (out : ostream),
    run {| fps := 10; signals := "xyl"; invert := ""; rate := 100;
           pps := 100 |}
        [ {| projector := 0; points := [mkPoint 100 0 0 255 0 0] |} ]
        empty_file = Ok (st, out) /\
    WavHeader.declared_data_size (content out) = 60 /\
    Z.of_nat (length (content out)) - 44 = 60 /\
    WavHeader.declared_chunk_size (content out) = 96.
Proof.
  eexists. eexists. split; [vm_compute; reflexivity|].
  match goal with |- ?d = _ /\ ?l = _ /\ ?c = _ =>
    assert (Hw : d = l /\ c = d + 36)
  end.
  { eapply (header_declares_written_bytes
             {| fps := 10; signals := "xyl"; invert := ""; rate := 100;
                pps := 100 |}
             [ {| projector := 0; points := [mkPoint 100 0 0 255 0 0] |} ]).
    vm_compute. reflexivity. }
  destruct Hw as [Hd Hc]. rewrite Hc, Hd. vm_compute. auto.
Defined.

End WavFacts.

(** ** The decoder: headers, palettes and the indexed formats *)

Module DecoderFacts.
Import Cxx IStream ResultFacts.

Lemma read_enough (size : nat) (bs : list byte) :
  (size <= length bs)%nat -> read size bs = Ok (take size bs, drop size bs).
Proof.
  intros H. unfold read.
  destruct (Nat.ltb_spec (length bs) size); [lia | reflexivity].
Qed.

(** The palette loop, started at entry [length done] of a palette whose
    first entries are [done], fills in the colours of the block in order. *)
Lemma loopColorPalette_fills (n : nat) :
  forall (bs : list byte) (h : ILDA.ilda_header.t) (f : Frame) (count : Z)
         (m : gmap Z (list ILDA.ILDAColor.t)) (done : list ILDA.ILDAColor.t),
    (3 * n <= length bs)%nat ->
    loopColorPalette n (length done)
      (mkIStream bs h f count
         (<[ILDA.ilda_header.projector_id h :=
              done ++ replicate n (rgb 0 0 0)]> m)) =
    Ok (mkIStream (drop (3 * n) bs) h f count
          (<[ILDA.ilda_header.projector_id h := done ++ read_colors n bs]> m)).
Proof.
  induction n as [|n IH]; intros bs h f count m done Hlen.
  - reflexivity.
  - cbn [loopColorPalette]. cbn [input].
    rewrite read_enough by (unfold ILDA.ILDAColor.size; lia).
    rewrite bind_ok. cbn beta iota.
    unfold store_color, set_input, set_palettes. cbn [header palettes input
      current_frame number_of_records].
    rewrite lookup_insert_eq. cbn [default from_option]. unfold id.
    rewrite insert_insert_eq.
    rewrite insert_app_r_alt by lia.
    rewrite Nat.sub_diag. cbn [replicate].
    change (<[0%nat:=?c]> (?z :: ?l)) with (c :: l).
    specialize (IH (drop ILDA.ILDAColor.size bs) h f count m
                   (done ++ [ILDA.ILDAColor.of_bytes
                               (take ILDA.ILDAColor.size bs)])).
    rewrite length_app in IH. cbn [length] in IH.
    replace (length done + 1)%nat with (S (length done)) in IH by lia.
    rewrite <- !app_assoc in IH. cbn [app] in IH.
    rewrite IH by (rewrite length_drop; unfold ILDA.ILDAColor.size; lia).
    rewrite drop_drop. cbn [read_colors].
    unfold ILDA.ILDAColor.size. do 3 f_equal. lia.
Qed.

(** A palette block replaces the palette of its source id by exactly the
    colours it carries, whatever was registered before, and leaves the
    frame buffer alone. *)
Lemma setColorPalette_replaces (st : ILDAIStream) :
  (3 * Z.to_nat (number_of_records st) <= length (input st))%nat ->
  setColorPalette st =
  Ok (mkIStream (drop (3 * Z.to_nat (number_of_records st)) (input st))
        (header st) (current_frame st) (number_of_records st)
        (<[ILDA.ilda_header.projector_id (header st) :=
             read_colors (Z.to_nat (number_of_records st)) (input st)]>
           (palettes st))).
Proof.
  intros Hlen. destruct st as [bs h f count m]. cbn [input header
    current_frame number_of_records palettes] in *.
  unfold setColorPalette, set_palettes. cbn [input header
    current_frame number_of_records palettes].
  exact (loopColorPalette_fills (Z.to_nat count) bs h f count m [] Hlen).
Qed.

Lemma readHeader_keeps (st st1 : ILDAIStream) :
  readHeader st = Ok st1 ->
  current_frame st1 = current_frame st /\ palettes st1 = palettes st.
Proof.
  unfold readHeader. intros H. bind_inv H. destruct a as [raw rest].
  destruct (negb _); [discriminate|]. inversion H. auto.
Qed.

(** The call that meets a palette block: the whole state afterwards. *)
Lemma nextFrame_palette_block (st st1 : ILDAIStream) :
  readHeader st = Ok st1 ->
  ILDA.ilda_header.format (header st1) = ILDA.FORMAT_COLOR_PALETTE ->
  number_of_records st1 <> 0 ->
  (3 * Z.to_nat (number_of_records st1) <= length (input st1))%nat ->
  nextFrame st =
  Ok (Some (current_frame st),
      mkIStream (drop (3 * Z.to_nat (number_of_records st1)) (input st1))
        (header st1) (current_frame st) (number_of_records st1)
        (<[ILDA.ilda_header.projector_id (header st1) :=
             read_colors (Z.to_nat (number_of_records st1)) (input st1)]>
           (palettes st))).
Proof.
  intros Hh Hfmt Hn Hlen. unfold nextFrame. rewrite Hh, bind_ok.
  replace (number_of_records st1 =? 0) with false
    by (symmetry; apply Z.eqb_neq; assumption).
  rewrite Hfmt. cbn [Z.eqb ILDA.FORMAT_COLOR_PALETTE
    ILDA.FORMAT_3D_COORDINATES_INDEXED ILDA.FORMAT_2D_INDEXED Pos.eqb].
  rewrite setColorPalette_replaces by assumption.
  rewrite bind_ok. cbn [current_frame].
  apply readHeader_keeps in Hh as [-> ->]. reflexivity.
Qed.




(** The indexed 3D loop appends one point per record of the block. *)
Lemma loop3dCoordinatesIndexed_points (palette : list ILDA.ILDAColor.t)
  (n : nat) :
  forall (bs : list byte) (h : ILDA.ilda_header.t) (id : Z)
         (pts : list Point) (count : Z) (m : gmap Z (list ILDA.ILDAColor.t)),
    (8 * n <= length bs)%nat ->
    loop3dCoordinatesIndexed palette n
      (mkIStream bs h {| projector := id; points := pts |} count m) =
    Ok (mkIStream (drop (8 * n) bs) h
          {| projector := id;
             points := pts ++ map (point_of_3d_indexed palette)
                                  (read_3d_indexed n bs) |}
          count m).
Proof.
  induction n as [|n IH]; intros bs h id pts count m Hlen.
  - cbn [loop3dCoordinatesIndexed read_3d_indexed map].
    now rewrite app_nil_r.
  - cbn [loop3dCoordinatesIndexed]. cbn [input].
    rewrite read_enough by (unfold ILDA.ILDA3dCoordinatesIndexed.size; lia).
    rewrite bind_ok. cbn beta iota.
    unfold push_back, set_input, set_frame.
    cbn [input header current_frame number_of_records palettes projector
         points].
    rewrite IH
      by (rewrite length_drop; unfold ILDA.ILDA3dCoordinatesIndexed.size; lia).
    rewrite drop_drop. cbn [read_3d_indexed map].
    rewrite <- app_assoc. cbn [app].
    unfold ILDA.ILDA3dCoordinatesIndexed.size, point_of_3d_indexed.
    do 3 f_equal. lia.
Qed.

Lemma indexed_point_in_range (palette : list ILDA.ILDAColor.t)
  (px py pz status color : Z) :
  0 <= color < Z.of_nat (length palette) ->
  ILDA.blanked status = false ->
  exists entry,
    palette !! Z.to_nat color = Some entry /\
    indexed_point palette px py pz status color =
    {| x := px; y := py; z := pz;
       r := ILDA.ILDAColor.r entry; g := ILDA.ILDAColor.g entry;
       b := ILDA.ILDAColor.b entry |}.
Proof.
  intros Hc Hb.
  destruct (lookup_lt_is_Some_2 palette (Z.to_nat color) ltac:(lia))
    as [entry He].
  exists entry. split; [exact He|].
  unfold indexed_point, black_or. rewrite Hb, orb_false_r.
  replace (Z.of_nat (length palette) <=? color) with false
    by (symmetry; apply Z.leb_gt; lia).
  now rewrite (nth_lookup_Some _ _ _ _ He).
Qed.

(** C7: a palette block replaces whatever palette its source id had by the
    colours it carries, and an indexed 3D block for the same source id that
    follows is decoded against these colours: a record that is not blanked
    and whose colour index is in range gets the entry of the new palette. *)
Theorem loaded_palette_resolves_indexed_colors
  (st st1 sta stb : ILDAIStream) (o : option Frame) :
  readHeader st = Ok st1 ->
  ILDA.ilda_header.format (header st1) = ILDA.FORMAT_COLOR_PALETTE ->
  number_of_records st1 <> 0 ->
  (3 * Z.to_nat (number_of_records st1) <= length (input st1))%nat ->
  nextFrame st = Ok (o, sta) ->
  readHeader sta = Ok stb ->
  ILDA.ilda_header.format (header stb) = ILDA.FORMAT_3D_COORDINATES_INDEXED ->
  ILDA.ilda_header.projector_id (header stb) =
    ILDA.ilda_header.projector_id (header st1) ->
  number_of_records stb <> 0 ->
  (8 * Z.to_nat (number_of_records stb) <= length (input stb))%nat ->
  let colors := read_colors (Z.to_nat (number_of_records st1)) (input st1) in
  palettes sta !! ILDA.ilda_header.projector_id (header st1) = Some colors /\
  (exists stc,
     nextFrame sta =
     Ok (Some {| projector := ILDA.ilda_header.projector_id (header stb);
                 points := map (point_of_3d_indexed colors)
                               (read_3d_indexed
                                  (Z.to_nat (number_of_records stb))
                                  (input stb)) |}, stc)) /\
  (forall c : ILDA.ILDA3dCoordinatesIndexed.t,
     0 <= ILDA.ILDA3dCoordinatesIndexed.color c < Z.of_nat (length colors) ->
     ILDA.blanked (ILDA.ILDA3dCoordinatesIndexed.status c) = false ->
     exists entry,
       colors !! Z.to_nat (ILDA.ILDA3dCoordinatesIndexed.color c)
         = Some entry /\
       point_of_3d_indexed colors c =
       {| x := ILDA.ILDA3dCoordinatesIndexed.x c;
          y := ILDA.ILDA3dCoordinatesIndexed.y c;
          z := ILDA.ILDA3dCoordinatesIndexed.z c;
          r := ILDA.ILDAColor.r entry; g := ILDA.ILDAColor.g entry;
          b := ILDA.ILDAColor.b entry |}).
Proof.
  intros Hh Hfmt Hn Hlen Hcall Hh2 Hfmt2 Hid Hn2 Hlen2 colors.
  rewrite (nextFrame_palette_block st st1 Hh Hfmt Hn Hlen) in Hcall.
  inversion Hcall; subst o sta; clear Hcall.
  assert (Hpal : palettes stb !! ILDA.ilda_header.projector_id (header stb)
                 = Some colors).
  { apply readHeader_keeps in Hh2 as [_ ->]. cbn [palettes].
    rewrite Hid. apply lookup_insert_eq. }
  split; [cbn [palettes]; apply lookup_insert_eq|]. split.
  - unfold nextFrame. rewrite Hh2, bind_ok.
    replace (number_of_records stb =? 0) with false
      by (symmetry; apply Z.eqb_neq; assumption).
    rewrite Hfmt2. cbn [Z.eqb ILDA.FORMAT_3D_COORDINATES_INDEXED].
    unfold frameFrom3dCoordinatesIndexed, palette_of, start_frame, set_frame.
    cbn [input header current_frame number_of_records palettes].
    rewrite Hpal.
    rewrite loop3dCoordinatesIndexed_points by assumption.
    rewrite bind_ok. cbn [current_frame app]. eauto.
  - intros c Hc Hb. apply indexed_point_in_range; assumption.
Qed.

Lemma loaded_palette_resolves_indexed_colors_witness :
  exists (o : option Frame) (sta stc : ILDAIStream),
    nextFrame (open palette_scenario) = Ok (o, sta) /\
    nextFrame sta =
    Ok (Some {| projector := 7;
                points := [ {| x := 1; y := 2; z := 3;
                               r := 0; g := 255; b := 0 |} ] |}, stc).
Proof.
  edestruct (loaded_palette_resolves_indexed_colors (open palette_scenario))
    as (_ & [stc Hframe] & _);
    [ vm_compute; reflexivity | reflexivity | discriminate | simpl; lia
    | vm_compute; reflexivity | vm_compute; reflexivity | reflexivity
    | reflexivity | discriminate | simpl; lia | ].
  eexists. eexists. exists stc. split; [vm_compute; reflexivity|].
  exact Hframe.
Defined.

(** *** The magic tag *)

Lemma string_eqb_eq (a c : list byte) : string_eqb a c = true <-> a = c.
Proof.
  revert c. induction a as [|h a IH]; intros [|k c]; simpl;
    try (split; [discriminate | congruence]); [tauto|].
  rewrite andb_true_iff, IH. split.
  - intros [Hh ->]. apply Byte.byte_dec_bl in Hh. now subst.
  - intros H. inversion H. split; [now apply Byte.byte_dec_lb | reflexivity].
Qed.

(** The string read at a pointer is [s] exactly when the memory holds [s]
    and then ends or continues with a NUL byte. *)
Lemma c_string_is (s : list byte) :
  (forall c, In c s -> c <> Byte.x00) ->
  forall memory,
    c_string memory = s <->
    memory = s \/ exists rest, memory = s ++ Byte.x00 :: rest.
Proof.
  induction s as [|a s IH]; intros Hs memory.
  - destruct memory as [|c rest]; simpl; [tauto|].
    destruct (Byte.eqb c Byte.x00) eqn:Hc.
    + apply Byte.byte_dec_bl in Hc. subst c. split; eauto.
    + apply Byte.eqb_false in Hc. split; [discriminate|].
      intros [H|[rest' H]]; [discriminate | congruence].
  - assert (Ha : a <> Byte.x00) by (apply Hs; now left).
    assert (Hs' : forall c, In c s -> c <> Byte.x00)
      by (intros c Hc; apply Hs; now right).
    destruct memory as [|c rest]; simpl.
    + split; [discriminate|]. intros [H|[rest' H]]; discriminate.
    + destruct (Byte.eqb c Byte.x00) eqn:Hc.
      * apply Byte.byte_dec_bl in Hc. subst c. split; [discriminate|].
        intros [H|[rest' H]]; congruence.
      * split.
        -- intros H. injection H as Hca Hrest. subst c.
           apply (IH Hs') in Hrest.
           destruct Hrest as [Hr|[rest' Hr]]; rewrite Hr;
             [now left | right; exists rest'; reflexivity].
        -- intros H.
           assert (c = a /\ (rest = s \/ exists rest', rest = s ++ Byte.x00 :: rest'))
             as [-> Hrest].
           { destruct H as [H|[rest' H]]; inversion H; eauto. }
           f_equal. now apply (IH Hs').
Qed.

(** What the check of [readHeader] accepts: the magic tag followed by a NUL
    byte in the first reserved position. *)
Lemma readHeader_accepts (st : ILDAIStream) :
  (32 <= length (input st))%nat ->
  (exists st1, readHeader st = Ok st1) <->
  take 5 (input st) = magic ++ [Byte.x00].
Proof.
  intros Hlen. unfold readHeader.
  rewrite read_enough by (unfold ILDA.ilda_header.size; lia).
  rewrite bind_ok. cbn beta iota.
  assert (Hcheck : string_eqb (c_string (take ILDA.ilda_header.size (input st)))
                     magic = true <->
                   take 5 (input st) = magic ++ [Byte.x00]).
  { rewrite string_eqb_eq, c_string_is.
    2:{ intros c [<-|[<-|[<-|[<-|[]]]]]; discriminate. }
    unfold ILDA.ilda_header.size. split.
    - intros [H|[rest H]].
      + apply (f_equal length) in H.
        rewrite length_take, Nat.min_l in H by lia. discriminate.
      + apply (f_equal (take 5)) in H. rewrite take_take in H.
        exact H.
    - intros H. right.
      exists (drop 5 (take 32 (input st))).
      rewrite <- (take_drop 5 (take 32 (input st))) at 1.
      rewrite take_take. change (5 `min` 32)%nat with 5%nat.
      rewrite H. reflexivity. }
  destruct (string_eqb _ magic); cbn [negb].
  - split; [intros _; now apply Hcheck | eauto].
  - split; [intros [st1 H]; discriminate|].
    intros H. apply Hcheck in H. discriminate.
Qed.

(** C8 at a failing input: a header that starts with the magic tag and has
    1 in its first reserved byte is rejected as corrupt. *)
Theorem magic_tag_with_reserved_byte :
  take 4 reserved_byte_header = magic /\
  length reserved_byte_header = 32%nat /\
  readHeader (open reserved_byte_header) = Fail CorruptFormat.
Proof. repeat split. Qed.

(** *** Format code 1 *)

(** Format code 1 runs the indexed 3D routine: records of eight bytes, the
    third 16-bit field taken as z. *)
Lemma format_1_reads_3d_records (st st1 : ILDAIStream) :
  readHeader st = Ok st1 ->
  ILDA.ilda_header.format (header st1) = ILDA.FORMAT_2D_INDEXED ->
  number_of_records st1 <> 0 ->
  (8 * Z.to_nat (number_of_records st1) <= length (input st1))%nat ->
  exists st2,
    nextFrame st =
    Ok (Some {| projector := ILDA.ilda_header.projector_id (header st1);
                points := map (point_of_3d_indexed (palette_of st1))
                              (read_3d_indexed
                                 (Z.to_nat (number_of_records st1))
                                 (input st1)) |}, st2) /\
    input st2 = drop (8 * Z.to_nat (number_of_records st1)) (input st1).
Proof.
  intros Hh Hfmt Hn Hlen. unfold nextFrame. rewrite Hh, bind_ok.
  replace (number_of_records st1 =? 0) with false
    by (symmetry; apply Z.eqb_neq; assumption).
  rewrite Hfmt.
  cbn [Z.eqb ILDA.FORMAT_3D_COORDINATES_INDEXED ILDA.FORMAT_2D_INDEXED
       Pos.eqb].
  unfold frameFrom3dCoordinatesIndexed, start_frame, set_frame.
  unfold palette_of at 1.
  cbn [input header current_frame number_of_records palettes].
  rewrite loop3dCoordinatesIndexed_points by assumption.
  rewrite bind_ok. cbn [current_frame app]. eexists. split; reflexivity.
Qed.

(** C2 at a failing input: one indexed 2D record (x = 1, y = 2, status 0,
    colour index 5) and the closing header.  [nextFrame] reads eight bytes:
    the point gets z = 1280 from the status and colour bytes, is blanked by
    the first letter of the next header, and the next header has lost its
    first two bytes.  The routine for the 2D layout, which [nextFrame] never
    calls, reads six bytes and gives z = 0.  With nothing behind the record
    the call fails. *)
Theorem indexed_2d_read_as_3d :
  returned_frame (nextFrame (open indexed_2d_file)) =
    Ok (Some {| projector := 0;
                points := [ {| x := 1; y := 2; z := 1280;
                               r := 0; g := 0; b := 0 |} ] |}) /\
  remaining_input (nextFrame (open indexed_2d_file)) =
    Ok (drop 2 (header_block 0 0 0)) /\
  (st ← readHeader (open indexed_2d_file);
   st' ← frameFrom2dCoordinatesIndexed st;
   Ok (current_frame st', input st')) =
    Ok ({| projector := 0;
           points := [ {| x := 1; y := 2; z := 0;
                          r := 255; g := 80; b := 0 |} ] |},
        header_block 0 0 0) /\
  nextFrame (open (header_block 1 1 0 ++ indexed_2d_record 1 2 0 5)) =
    Fail UnexpectedEof.
Proof. repeat split. Qed.

End DecoderFacts.
